(** * Header.js: a styled wrapper component

    A shallow embedding of [src/Header.js].  The module declares two styled
    components with a tagged template each and exports one function
    component, [Header], whose body is the JSX expression

    <<
      <StyledHeader>
        <StyledH1>{props.children}</StyledH1>
      </StyledHeader>
    >>

    that is [createElement(StyledHeader, null,
    createElement(StyledH1, null, props.children))].

    JavaScript objects have identity and can be mutated, so the embedding
    threads a heap: a finite map from locations to objects.  A call of
    [Header] reads one property of its argument and allocates two element
    objects. *)

From Stdlib Require Import PrimFloat Ascii String.
From stdpp Require Import base option gmap strings list.

Local Open Scope string_scope.

(** ** Values and objects *)

Abbreviation loc := positive.

(** A JavaScript value: a primitive or a reference to a heap object.
    Numbers are IEEE 754 doubles. *)
Inductive value :=
  | VUndefined
  | VNull
  | VBool (b : bool)
  | VNum (n : float)
  | VStr (s : string)
  | VRef (l : loc).

(** The value of [styled.tag`css`]: the tag and the text of the template. *)
Record StyledComponent := { tag : string; styles : string }.

(** What an element is an instance of. *)
Inductive elem_type :=
  | Host (name : string)
  | Styled (c : StyledComponent)
  | Component (f : loc).

(** A heap object.  [OData] stands for any object that is not an element (an
    object literal, an array, a function), with its data properties;
    [OElement] is what [createElement] builds: a type and a props bag. *)
Inductive object :=
  | OData (fields : gmap string value)
  | OElement (type : elem_type) (props : gmap string value).

Abbreviation heap := (gmap loc object).

(** ** Computations: a heap in, a heap and a result or an exception out *)

(** [TypeError] is JavaScript's; [Dangling] marks a reference to a location
    the heap does not hold, which no execution of a program reaches. *)
Inductive error := TypeError | Dangling.

Inductive result (A : Type) :=
  | Return (a : A)
  | Throw (e : error).
Arguments Return {A} a.
Arguments Throw {A} e.

Definition M (A : Type) : Type := heap → heap * result A.

Definition throw {A} (e : error) : M A := λ h, (h, Throw e).

#[export] Instance M_ret : MRet M := λ A a h, (h, Return a).
#[export] Instance M_bind : MBind M := λ A B k m h,
  match m h with
  | (h', Return a) => k a h'
  | (h', Throw e) => (h', Throw e)
  end.

(** Allocation of a new object at a location the heap does not use. *)
Definition fresh_loc (h : heap) : loc := fresh (dom h).

Definition alloc (o : object) : M loc :=
  λ h, let l := fresh_loc h in (<[l := o]> h, Return l).

(** ** The operations [Header] uses *)

(** The content a props object carries: its [children] property, [undefined]
    when it has none.  An element has the properties [type], [key], [ref]
    and [props], and none called [children]. *)
Definition content_of (o : object) : value :=
  match o with
  | OData fields => default VUndefined (fields !! "children")
  | OElement _ _ => VUndefined
  end.

(** The object a reference points to. *)
Definition deref (l : loc) : M object :=
  λ h, match h !! l with
       | Some o => (h, Return o)
       | None => (h, Throw Dangling)
       end.

(** The expression [v.children].  Reading a property of [undefined] or
    [null] throws a TypeError; a boolean, a number or a string has no
    property of that name; an object answers with its property, or with
    [undefined] when it has none. *)
Definition get_children (v : value) : M value :=
  match v with
  | VUndefined | VNull => throw TypeError
  | VBool _ | VNum _ | VStr _ => mret VUndefined
  | VRef l => o ← deref l; mret (content_of o)
  end.

(** [createElement(type, null, child)]: a new element whose props hold the
    one child under [children] (the key is set also when the child is
    [undefined]).  A styled component of a tag has no default props to add. *)
Definition createElement (type : elem_type) (child : value) : M value :=
  l ← alloc (OElement type {["children" := child]});
  mret (VRef l).

(** [styled.tag`css`] *)
Definition styled (tag : string) (css : string) : StyledComponent :=
  {| tag := tag; styles := css |}.

(** ** The module *)

Definition StyledHeader : StyledComponent := styled "header" "
  width: 100%;
  min-height: 100vh;
  align-items: center;
  display: flex;
  justify-content: center;
".

Definition StyledH1 : StyledComponent := styled "h1" "
  font-size: 2re;
".

Definition Header (props : value) : M value :=
  children ← get_children props;
  h1 ← createElement (Styled StyledH1) children;
  createElement (Styled StyledHeader) h1.

(** ** Reading a result back

    The element tree below a value, read from the heap down to a given
    depth; what lies deeper, and whatever is not an element, is a [Slot]
    holding the value as it is. *)

Inductive tree :=
  | Slot (v : value)
  | Element (type : elem_type) (children : tree).

Fixpoint view (depth : nat) (h : heap) (v : value) : tree :=
  match depth with
  | 0 => Slot v
  | S d =>
      match v with
      | VRef l =>
          match h !! l with
          | Some (OElement type props) =>
              Element type (view d h (default VUndefined (props !! "children")))
          | _ => Slot v
          end
      | _ => Slot v
      end
  end.

(** ** What a call leaves in the heap

    Names for the two locations a call of [Header] allocates at, the two
    elements it puts there and the heap it ends in; the lemmas of the second
    part relate them to [Header]. *)

Definition inner_loc (h : heap) : loc := fresh_loc h.
Definition outer_loc (h : heap) : loc := fresh ({[inner_loc h]} ∪ dom h).

Definition inner_element (c : value) : object :=
  OElement (Styled StyledH1) {["children" := c]}.
Definition outer_element (h : heap) : object :=
  OElement (Styled StyledHeader) {["children" := VRef (inner_loc h)]}.

(** The heap a call that reads the content [c] leaves. *)
Definition after (h : heap) (c : value) : heap :=
  <[outer_loc h := outer_element h]> (<[inner_loc h := inner_element c]> h).

(** ** Style text as declarations

    A style block is a sequence of declarations [property: value;].  *)

Module Css.

Definition is_space (a : ascii) : bool :=
  match Ascii.nat_of_ascii a with
  | 9 | 10 | 12 | 13 | 32 => true
  | _ => false
  end.

Fixpoint ltrim (l : list ascii) : list ascii :=
  match l with
  | a :: l' => if is_space a then ltrim l' else l
  | [] => []
  end.

Definition trim (l : list ascii) : list ascii := rev (ltrim (rev (ltrim l))).

(** Pieces of [l] between the elements [sep] holds of. *)
Fixpoint split_when {A} (sep : A → bool) (l : list A) : list (list A) :=
  match l with
  | [] => [[]]
  | a :: l' =>
      match split_when sep l' with
      | piece :: pieces =>
          if sep a then [] :: piece :: pieces else (a :: piece) :: pieces
      | [] => [[a]]
      end
  end.

(** What stands before and after the first element [sep] holds of. *)
Fixpoint break_when {A} (sep : A → bool) (l : list A) : option (list A * list A) :=
  match l with
  | [] => None
  | a :: l' =>
      if sep a then Some ([], l')
      else match break_when sep l' with
           | Some (before, after) => Some (a :: before, after)
           | None => None
           end
  end.

Definition split_on (sep : ascii) : list ascii → list (list ascii) :=
  split_when (Ascii.eqb sep).
Definition break_at (sep : ascii) : list ascii → option (list ascii * list ascii) :=
  break_when (Ascii.eqb sep).

Definition declaration (piece : list ascii) : option (string * string) :=
  match break_at ":" piece with
  | Some (property, val) =>
      Some (string_of_list_ascii (trim property), string_of_list_ascii (trim val))
  | None => None
  end.

Definition declarations (css : string) : list (string * string) :=
  omap declaration (split_on ";" (list_ascii_of_string css)).

(** The value a style block gives a property: that of its last declaration
    of the property, as the cascade has it. *)
Definition rule (css : string) (property : string) : option string :=
  snd <$> last (filter (λ d, d.1 = property) (declarations css)).

Definition is_digit (a : ascii) : bool :=
  let n := Ascii.nat_of_ascii a in (48 <=? n)%nat && (n <=? 57)%nat.

Definition is_number_char (a : ascii) : bool :=
  is_digit a || Ascii.eqb a "." || Ascii.eqb a "+" || Ascii.eqb a "-".

Fixpoint span (p : ascii → bool) (l : list ascii) : list ascii * list ascii :=
  match l with
  | a :: l' => if p a then let '(yes, rest) := span p l' in (a :: yes, rest) else ([], l)
  | [] => ([], [])
  end.

(** A dimension is a number with a unit behind it: [2re] is [2] and [re].
    A word with no digit in its number part is not a dimension. *)
Definition dimension (word : string) : option (string * string) :=
  let '(number, unit) := span is_number_char (list_ascii_of_string word) in
  if existsb is_digit number
  then Some (string_of_list_ascii number, string_of_list_ascii unit)
  else None.

End Css.

(** ** The linter's unknown-unit rule *)

Module Lint.

(** Modelled from the spec: the units the linter knows.  The linter is a
    third-party tool and no code of it is in the repository; the spec says
    that it reports the unit [re] as unknown and accepts [rem].  The table
    holds the units of CSS lengths, percentages, times, angles, frequencies
    and resolutions, in lower case. *)
Definition known_units : list string :=
  [ "em"; "ex"; "ch"; "rem";
    "vh"; "vw"; "vmin"; "vmax"; "vm";
    "px"; "mm"; "cm"; "in"; "pt"; "pc"; "q";
    "fr";
    "%";
    "s"; "ms";
    "deg"; "grad"; "turn"; "rad";
    "hz"; "khz";
    "dpi"; "dpcm"; "dppx" ].

Definition lower (a : ascii) : ascii :=
  let n := Ascii.nat_of_ascii a in
  if (65 <=? n)%nat && (n <=? 90)%nat then Ascii.ascii_of_nat (n + 32) else a.

Definition lowercase (s : string) : string :=
  string_of_list_ascii (map lower (list_ascii_of_string s)).

Definition known (unit : string) : bool :=
  bool_decide (lowercase unit ∈ known_units).

(** A character and where it stands: line and column, both from 1. *)
Record located := { line : nat; column : nat; char : ascii }.

Fixpoint locate (ln col : nat) (l : list ascii) : list located :=
  match l with
  | [] => []
  | a :: l' =>
      {| line := ln; column := col; char := a |}
      :: (if Ascii.eqb a "010" then locate (S ln) 1 l' else locate ln (S col) l')
  end.

Definition text (l : list located) : string :=
  string_of_list_ascii (map char l).

Record diagnostic :=
  { at_line : nat; at_column : nat; rule_name : string; subject : string }.

Definition is_separator (a : ascii) : bool :=
  Css.is_space a || Ascii.eqb a "," || Ascii.eqb a "(" || Ascii.eqb a ")"
  || Ascii.eqb a "/".

(** Modelled from the spec: a word of a declaration's value that is a
    dimension with a unit outside the table is reported where it starts. *)
Definition check_word (word : list located) : option diagnostic :=
  match word with
  | [] => None
  | c :: _ =>
      match Css.dimension (text word) with
      | Some (_, unit) =>
          if (unit =? "")%string || known unit then None
          else Some {| at_line := line c; at_column := column c;
                       rule_name := "unit-no-unknown"; subject := unit |}
      | None => None
      end
  end.

Definition check_declaration (piece : list located) : list diagnostic :=
  match Css.break_when (λ c, Ascii.eqb (char c) ":") piece with
  | Some (_, val) => omap check_word (Css.split_when (λ c, is_separator (char c)) val)
  | None => []
  end.

Definition check_block (css : list located) : list diagnostic :=
  concat (map check_declaration (Css.split_when (λ c, Ascii.eqb (char c) ";") css)).

(** Modelled from the spec: linting a style text on its own. *)
Definition lint_css (css : string) : list diagnostic :=
  check_block (locate 1 1 (list_ascii_of_string css)).

(** The template literals of a JavaScript text: what stands between the
    first and the second backquote, the third and the fourth, and so on. *)
Fixpoint every_other {A} (take : bool) (l : list A) : list A :=
  match l with
  | [] => []
  | a :: l' => if take then a :: every_other false l' else every_other true l'
  end.

Definition templates (js : string) : list (list located) :=
  every_other false
    (Css.split_when (λ c, Ascii.eqb (char c) "`") (locate 1 1 (list_ascii_of_string js))).

(** Modelled from the spec: linting a JavaScript file is linting the style
    text of its template literals, with the positions in the file. *)
Definition lint_js (js : string) : list diagnostic :=
  concat (map check_block (templates js)).

(** The text of [src/Header.js]. *)
Definition Header_js : string := "import React from 'react';
import styled from '@emotion/styled';

const StyledHeader = styled.header`
  width: 100%;
  min-height: 100vh;
  align-items: center;
  display: flex;
  justify-content: center;
`;

const StyledH1 = styled.h1`
  font-size: 2re;
`;

const Header = (props) => (
  <StyledHeader>
    <StyledH1>{props.children}</StyledH1>
  </StyledHeader>
);

export default Header;
".

(** The inner style block with the unit corrected. *)
Definition corrected_styles : string := "
  font-size: 2rem;
".

End Lint.

(** ** Heaps for the examples *)

Module Examples.

(** [<Header>Hello</Header>] *)
Definition hello_props : object := OData {["children" := VStr "Hello"]}.

(** [<Header />] *)
Definition no_props : object := OData ∅.

(** [<Header id="top" title="x">Hello</Header>] *)
Definition more_props : object :=
  OData {["children" := VStr "Hello"; "id" := VStr "top"; "title" := VStr "x"]}.

(** [<Header>{items}</Header>] with [items] the object at location 4, which
    holds a reference to the props object itself. *)
Definition nested_props : object := OData {["children" := VRef 4%positive]}.

Definition example_heap : heap :=
  {[ 1%positive := hello_props;
     2%positive := no_props;
     3%positive := more_props;
     4%positive := OData {["0" := VNum 1%float; "owner" := VRef 5%positive]};
     5%positive := nested_props ]}.

End Examples.

(** ** Kinds of values and well-formed heaps *)

(** A boolean, a number or a string: a value with properties to read but no
    place in the heap. *)
Definition is_primitive (v : value) : bool :=
  match v with
  | VBool _ | VNum _ | VStr _ => true
  | VUndefined | VNull | VRef _ => false
  end.

(** A value that is a reference points to an object of the heap. *)
Definition allocated (h : heap) (v : value) : Prop :=
  match v with
  | VRef l => is_Some (h !! l)
  | _ => True
  end.

#[export] Instance allocated_dec (h : heap) (v : value) : Decision (allocated h v).
Proof. destruct v; apply _. Defined.

Definition type_allocated (h : heap) (type : elem_type) : Prop :=
  match type with
  | Component f => is_Some (h !! f)
  | Host _ | Styled _ => True
  end.

#[export] Instance type_allocated_dec (h : heap) (type : elem_type) :
  Decision (type_allocated h type).
Proof. destruct type; apply _. Defined.

(** Every reference an object holds points into the heap. *)
Definition object_closed (h : heap) (o : object) : Prop :=
  match o with
  | OData fields => map_Forall (λ _ v, allocated h v) fields
  | OElement type props =>
      type_allocated h type ∧ map_Forall (λ _ v, allocated h v) props
  end.

#[export] Instance object_closed_dec (h : heap) (o : object) :
  Decision (object_closed h o).
Proof. destruct o; apply _. Defined.

(** A heap as a program has it: no object holds a reference to nowhere. *)
Definition closed (h : heap) : Prop :=
  map_Forall (λ _ o, object_closed h o) h.

#[export] Instance closed_dec (h : heap) : Decision (closed h).
Proof. apply _. Defined.

(** * Properties *)

(** ** Running the operations *)

Lemma alloc_run (o : object) (h : heap) :
  alloc o h = (<[fresh_loc h := o]> h, Return (fresh_loc h)).
Proof. reflexivity. Qed.

Lemma createElement_run (type : elem_type) (child : value) (h : heap) :
  createElement type child h =
  (<[fresh_loc h := OElement type {["children" := child]}]> h,
   Return (VRef (fresh_loc h))).
Proof. reflexivity. Qed.

Lemma fresh_loc_insert (h : heap) (l : loc) (o : object) :
  fresh_loc (<[l := o]> h) = fresh ({[l]} ∪ dom h).
Proof. unfold fresh_loc. by rewrite dom_insert_L. Qed.

Lemma get_children_object (h : heap) (l : loc) (o : object) :
  h !! l = Some o → get_children (VRef l) h = (h, Return (content_of o)).
Proof.
  intros Hl. unfold get_children, mbind, M_bind, deref. by rewrite Hl.
Qed.

Lemma Header_run (h : heap) (l : loc) (o : object) :
  h !! l = Some o →
  Header (VRef l) h = (after h (content_of o), Return (VRef (outer_loc h))).
Proof.
  intros Hl. unfold Header, mbind, M_bind.
  rewrite (get_children_object h l o Hl), !createElement_run.
  rewrite fresh_loc_insert. reflexivity.
Qed.

Lemma inner_loc_fresh (h : heap) : h !! inner_loc h = None.
Proof.
  apply (not_elem_of_dom (D := gset loc)).
  unfold inner_loc, fresh_loc. apply is_fresh.
Qed.

Lemma outer_loc_fresh (h : heap) : h !! outer_loc h = None.
Proof.
  apply (not_elem_of_dom (D := gset loc)). intros Hin.
  apply (is_fresh ({[inner_loc h]} ∪ dom h)). fold (outer_loc h). set_solver.
Qed.

Lemma outer_inner_ne (h : heap) : outer_loc h ≠ inner_loc h.
Proof.
  intros Heq. apply (is_fresh ({[inner_loc h]} ∪ dom h)).
  fold (outer_loc h). rewrite Heq. set_solver.
Qed.

Lemma after_outer (h : heap) (c : value) :
  after h c !! outer_loc h = Some (outer_element h).
Proof. unfold after. by rewrite lookup_insert_eq. Qed.

Lemma after_inner (h : heap) (c : value) :
  after h c !! inner_loc h = Some (inner_element c).
Proof.
  unfold after. rewrite lookup_insert_ne by apply outer_inner_ne.
  by rewrite lookup_insert_eq.
Qed.

Lemma after_old (h : heap) (c : value) (l : loc) :
  is_Some (h !! l) → after h c !! l = h !! l.
Proof.
  intros [o Hl]. unfold after.
  rewrite !lookup_insert_ne; [done | |].
  - intros Heq. rewrite <- Heq, inner_loc_fresh in Hl. done.
  - intros Heq. rewrite <- Heq, outer_loc_fresh in Hl. done.
Qed.

Lemma after_extends (h : heap) (c : value) : h ⊆ after h c.
Proof.
  unfold after. etrans; [| apply insert_subseteq].
  - apply insert_subseteq, inner_loc_fresh.
  - rewrite lookup_insert_ne by (symmetry; apply outer_inner_ne).
    apply outer_loc_fresh.
Qed.

Lemma after_dom (h : heap) (c : value) :
  dom (after h c) = {[outer_loc h; inner_loc h]} ∪ dom h.
Proof.
  unfold after. rewrite !dom_insert_L.
  by rewrite (assoc_L (∪)).
Qed.

Lemma view_element (d : nat) (h : heap) (l : loc) type (props : gmap string value) :
  h !! l = Some (OElement type props) →
  view (S d) h (VRef l) =
  Element type (view d h (default VUndefined (props !! "children"))).
Proof. intros Hl. cbn [view]. by rewrite Hl. Qed.

Lemma view_after (h : heap) (c : value) :
  view 2 (after h c) (VRef (outer_loc h)) =
  Element (Styled StyledHeader) (Element (Styled StyledH1) (Slot c)).
Proof.
  rewrite (view_element _ _ _ _ _ (after_outer h c)), lookup_singleton_eq.
  cbn [default].
  rewrite (view_element _ _ _ _ _ (after_inner h c)), lookup_singleton_eq.
  reflexivity.
Qed.

(** A call leaves what an earlier call built as it was. *)
Lemma after_keeps_view (h : heap) (c c' : value) :
  view 2 (after (after h c) c') (VRef (outer_loc h)) =
  Element (Styled StyledHeader) (Element (Styled StyledH1) (Slot c)).
Proof.
  assert (Houter : after (after h c) c' !! outer_loc h = Some (outer_element h)).
  { rewrite after_old; rewrite after_outer; done. }
  assert (Hinner : after (after h c) c' !! inner_loc h = Some (inner_element c)).
  { rewrite after_old; rewrite after_inner; done. }
  rewrite (view_element _ _ _ _ _ Houter), lookup_singleton_eq. cbn [default].
  rewrite (view_element _ _ _ _ _ Hinner), lookup_singleton_eq.
  reflexivity.
Qed.

(** The locations a call allocates at depend on the heap's domain only. *)
Lemma locs_dom (g h : heap) :
  dom g = dom h → inner_loc g = inner_loc h ∧ outer_loc g = outer_loc h.
Proof.
  intros Hdom. assert (inner_loc g = inner_loc h) as Hin.
  { unfold inner_loc, fresh_loc. by rewrite Hdom. }
  split; [done |]. unfold outer_loc. by rewrite Hin, Hdom.
Qed.

(** A direct call with [undefined] or [null] for the props object fails at
    the property read, before anything is allocated. *)
Example Header_undefined_props (h : heap) :
  Header VUndefined h = (h, Throw TypeError) ∧ Header VNull h = (h, Throw TypeError).
Proof. split; reflexivity. Qed.

(** ** The wrapper *)

(** C1: for every content value, absent content included, the call yields a
    structure whose innermost slot holds exactly that value; the call changes
    no object that was there before (so neither the content nor the props
    object), and it does not look at the content: heaps that differ in
    anything but the props object and the set of locations in use give the
    same two elements at the same locations. *)
Theorem Header_content_passes_through (h : heap) (props : loc) (o : object) :
  h !! props = Some o →
  ∃ (h' : heap) (outer inner : loc),
    Header (VRef props) h = (h', Return (VRef outer)) ∧
    h' !! outer = Some (OElement (Styled StyledHeader) {["children" := VRef inner]}) ∧
    h' !! inner = Some (OElement (Styled StyledH1) {["children" := content_of o]}) ∧
    view 2 h' (VRef outer) =
      Element (Styled StyledHeader) (Element (Styled StyledH1) (Slot (content_of o))) ∧
    (∀ l : loc, is_Some (h !! l) → h' !! l = h !! l) ∧
    (∀ g : heap, dom g = dom h → g !! props = Some o →
       ∃ g' : heap,
         Header (VRef props) g = (g', Return (VRef outer)) ∧
         g' !! outer = h' !! outer ∧ g' !! inner = h' !! inner ∧
         (∀ l : loc, is_Some (g !! l) → g' !! l = g !! l)).
Proof.
  intros Hprops.
  exists (after h (content_of o)), (outer_loc h), (inner_loc h).
  split; [by apply Header_run |].
  split; [apply after_outer |].
  split; [apply after_inner |].
  split; [apply view_after |].
  split; [intros l Hl; by apply after_old |].
  intros g Hdom Hg. destruct (locs_dom g h Hdom) as [Hin Hout].
  exists (after g (content_of o)).
  split; [by rewrite (Header_run g props o Hg), Hout |].
  split.
  { rewrite <- Hout at 1. rewrite !after_outer. unfold outer_element. by rewrite Hin. }
  split.
  { rewrite <- Hin at 1. by rewrite !after_inner. }
  intros l Hl. by apply after_old.
Qed.

Lemma Header_content_passes_through_witness :
  ∃ (h' : heap) (outer : loc),
    Header (VRef 5%positive) Examples.example_heap = (h', Return (VRef outer)) ∧
    view 2 h' (VRef outer) =
      Element (Styled StyledHeader) (Element (Styled StyledH1) (Slot (VRef 4%positive))).
Proof.
  destruct (Header_content_passes_through
              Examples.example_heap 5%positive Examples.nested_props)
    as (h' & outer & inner & Hrun & _ & _ & Hview & _).
  - vm_compute. reflexivity.
  - exists h', outer. split; assumption.
Defined.

(** C2: for every content value the call builds exactly two elements, at two
    new and distinct locations: the outer one, a [header], has the inner one
    for its single child, and the inner one, an [h1], has the content slot
    for its single child. *)
Theorem Header_two_levels (h : heap) (props : loc) (o : object) :
  h !! props = Some o →
  ∃ (h' : heap) (outer inner : loc) (c : value),
    Header (VRef props) h = (h', Return (VRef outer)) ∧
    outer ≠ inner ∧ h !! outer = None ∧ h !! inner = None ∧
    dom h' = {[outer; inner]} ∪ dom h ∧
    h' !! outer = Some (OElement (Styled StyledHeader) {["children" := VRef inner]}) ∧
    h' !! inner = Some (OElement (Styled StyledH1) {["children" := c]}) ∧
    tag StyledHeader = "header" ∧ tag StyledH1 = "h1" ∧
    view 2 h' (VRef outer) =
      Element (Styled StyledHeader) (Element (Styled StyledH1) (Slot c)).
Proof.
  intros Hprops.
  exists (after h (content_of o)), (outer_loc h), (inner_loc h), (content_of o).
  split; [by apply Header_run |].
  split; [apply outer_inner_ne |].
  split; [apply outer_loc_fresh |].
  split; [apply inner_loc_fresh |].
  split; [apply after_dom |].
  split; [apply after_outer |].
  split; [apply after_inner |].
  split; [reflexivity |]. split; [reflexivity |]. apply view_after.
Qed.

Lemma Header_two_levels_witness :
  ∃ (h' : heap) (outer inner : loc),
    Header (VRef 1%positive) Examples.example_heap = (h', Return (VRef outer)) ∧
    outer ≠ inner ∧
    dom h' = {[outer; inner]} ∪ dom Examples.example_heap.
Proof.
  destruct (Header_two_levels Examples.example_heap 1%positive Examples.hello_props)
    as (h' & outer & inner & c & Hrun & Hne & _ & _ & Hdom & _).
  - vm_compute. reflexivity.
  - exists h', outer, inner. repeat split; assumption.
Defined.

(** C3: for every content value the outer element is an instance of the
    block with the rules width 100%, min-height 100vh, display flex,
    justify-content center and align-items center, the inner element of the
    block with the one rule for font-size, and the content is the value in
    the innermost slot. *)
Theorem Header_style_rules (h : heap) (props : loc) (o : object) :
  h !! props = Some o →
  ∃ (h' : heap) (out : value),
    Header (VRef props) h = (h', Return out) ∧
    view 2 h' out =
      Element (Styled StyledHeader) (Element (Styled StyledH1) (Slot (content_of o))) ∧
    Css.declarations (styles StyledHeader) =
      [("width", "100%"); ("min-height", "100vh"); ("align-items", "center");
       ("display", "flex"); ("justify-content", "center")] ∧
    Css.rule (styles StyledHeader) "width" = Some "100%" ∧
    Css.rule (styles StyledHeader) "min-height" = Some "100vh" ∧
    Css.rule (styles StyledHeader) "display" = Some "flex" ∧
    Css.rule (styles StyledHeader) "justify-content" = Some "center" ∧
    Css.rule (styles StyledHeader) "align-items" = Some "center" ∧
    Css.declarations (styles StyledH1) = [("font-size", "2re")].
Proof.
  intros Hprops.
  exists (after h (content_of o)), (VRef (outer_loc h)).
  split; [by apply Header_run |].
  split; [apply view_after |].
  repeat split; vm_compute; reflexivity.
Qed.

Lemma Header_style_rules_witness :
  ∃ (h' : heap) (out : value),
    Header (VRef 3%positive) Examples.example_heap = (h', Return out) ∧
    view 2 h' out =
      Element (Styled StyledHeader) (Element (Styled StyledH1) (Slot (VStr "Hello"))).
Proof.
  destruct (Header_style_rules Examples.example_heap 3%positive Examples.more_props)
    as (h' & out & Hrun & Hview & _).
  - vm_compute. reflexivity.
  - exists h', out. split; assumption.
Defined.

(** C4: a call changes nothing that was in the heap, and calling again with
    the same props gives a new element of the same structure as the first;
    more generally a call from any heap whatever, with any props object of
    the same content, gives that structure, so that nothing an earlier call
    left behind has an influence. *)
Theorem Header_repeatable (h : heap) (props : loc) (o : object) :
  h !! props = Some o →
  ∃ (h1 h2 : heap) (out1 out2 : loc),
    Header (VRef props) h = (h1, Return (VRef out1)) ∧
    Header (VRef props) h1 = (h2, Return (VRef out2)) ∧
    h ⊆ h1 ∧ h1 ⊆ h2 ∧
    out1 ≠ out2 ∧
    view 2 h1 (VRef out1) = view 2 h2 (VRef out2) ∧
    view 2 h2 (VRef out1) = view 2 h2 (VRef out2) ∧
    (∀ (g : heap) (q : loc) (o' : object),
       g !! q = Some o' → content_of o' = content_of o →
       ∃ (g' : heap) (out : loc),
         Header (VRef q) g = (g', Return (VRef out)) ∧ g ⊆ g' ∧
         view 2 g' (VRef out) = view 2 h1 (VRef out1)).
Proof.
  intros Hprops. set (c := content_of o).
  assert (Hprops1 : after h c !! props = Some o).
  { rewrite after_old; [done | by eexists]. }
  exists (after h c), (after (after h c) c), (outer_loc h), (outer_loc (after h c)).
  split; [by apply Header_run |].
  split; [by apply (Header_run (after h c)) |].
  split; [apply after_extends |].
  split; [apply after_extends |].
  split.
  { intros Heq. pose proof (outer_loc_fresh (after h c)) as Hfresh.
    rewrite <- Heq, after_outer in Hfresh. done. }
  split; [by rewrite !view_after |].
  split; [by rewrite after_keeps_view, view_after |].
  intros g q o' Hq Hc.
  exists (after g (content_of o')), (outer_loc g).
  split; [by apply Header_run |].
  split; [apply after_extends |].
  by rewrite !view_after, Hc.
Qed.

Lemma Header_repeatable_witness :
  ∃ (h1 h2 : heap) (out1 out2 : loc),
    Header (VRef 1%positive) Examples.example_heap = (h1, Return (VRef out1)) ∧
    Header (VRef 1%positive) h1 = (h2, Return (VRef out2)) ∧
    view 2 h2 (VRef out1) = view 2 h2 (VRef out2).
Proof.
  destruct (Header_repeatable Examples.example_heap 1%positive Examples.hello_props)
    as (h1 & h2 & out1 & out2 & Hrun1 & Hrun2 & _ & _ & _ & _ & Hview & _).
  - vm_compute. reflexivity.
  - exists h1, h2, out1, out2. repeat split; assumption.
Defined.

(** Every value is the content of some props object, and a props object
    with no [children] has the content [undefined]. *)
Lemma content_of_children (c : value) (fields : gmap string value) :
  content_of (OData (<["children" := c]> fields)) = c.
Proof. unfold content_of. by rewrite lookup_insert_eq. Qed.

Lemma content_of_absent (fields : gmap string value) :
  fields !! "children" = None → content_of (OData fields) = VUndefined.
Proof. intros Hnone. unfold content_of. by rewrite Hnone. Qed.

(** C5: the call returns for every props object, so for every content:
    whatever the object holds under [children] (text, a reference to a nested
    structure, [undefined]) and also when it holds nothing there, the result
    is a reference to a new element in the heap, never an exception. *)
Theorem Header_total (h : heap) (props : loc) (o : object) :
  h !! props = Some o →
  ∃ (h' : heap) (out : loc) (type : elem_type) (ps : gmap string value),
    Header (VRef props) h = (h', Return (VRef out)) ∧
    h' !! out = Some (OElement type ps).
Proof.
  intros Hprops. exists (after h (content_of o)), (outer_loc h).
  eexists _, _. split; [by apply Header_run |]. apply after_outer.
Qed.

Lemma Header_total_witness :
  (∃ (h' : heap) (out : loc),
     Header (VRef 2%positive) Examples.example_heap = (h', Return (VRef out))) ∧
  (∃ (h' : heap) (out : loc),
     Header (VRef 5%positive) Examples.example_heap = (h', Return (VRef out))).
Proof.
  split.
  - destruct (Header_total Examples.example_heap 2%positive Examples.no_props)
      as (h' & out & _ & _ & Hrun & _).
    + vm_compute. reflexivity.
    + exists h', out. assumption.
  - destruct (Header_total Examples.example_heap 5%positive Examples.nested_props)
      as (h' & out & _ & _ & Hrun & _).
    + vm_compute. reflexivity.
    + exists h', out. assumption.
Defined.

(** C6: called with the text Hello, the wrapper yields the outer element,
    whose block asks for the full width, at least the height of the viewport
    and centring along both axes, around the inner element, whose one child
    is the text Hello itself. *)
Theorem Header_hello (h : heap) (props : loc) (fields : gmap string value) :
  h !! props = Some (OData fields) →
  fields !! "children" = Some (VStr "Hello") →
  ∃ (h' : heap) (outer inner : loc),
    Header (VRef props) h = (h', Return (VRef outer)) ∧
    h' !! outer = Some (OElement (Styled StyledHeader) {["children" := VRef inner]}) ∧
    h' !! inner = Some (OElement (Styled StyledH1) {["children" := VStr "Hello"]}) ∧
    view 2 h' (VRef outer) =
      Element (Styled StyledHeader) (Element (Styled StyledH1) (Slot (VStr "Hello"))) ∧
    Css.rule (styles StyledHeader) "width" = Some "100%" ∧
    Css.rule (styles StyledHeader) "min-height" = Some "100vh" ∧
    Css.rule (styles StyledHeader) "display" = Some "flex" ∧
    Css.rule (styles StyledHeader) "justify-content" = Some "center" ∧
    Css.rule (styles StyledHeader) "align-items" = Some "center".
Proof.
  intros Hprops Hchildren.
  assert (Hc : content_of (OData fields) = VStr "Hello").
  { unfold content_of. by rewrite Hchildren. }
  exists (after h (VStr "Hello")), (outer_loc h), (inner_loc h).
  split; [by rewrite (Header_run h props _ Hprops), Hc |].
  split; [apply after_outer |].
  split; [apply after_inner |].
  split; [apply view_after |].
  repeat split; vm_compute; reflexivity.
Qed.

Lemma Header_hello_witness :
  ∃ (h' : heap) (outer : loc),
    Header (VRef 1%positive) Examples.example_heap = (h', Return (VRef outer)) ∧
    view 2 h' (VRef outer) =
      Element (Styled StyledHeader) (Element (Styled StyledH1) (Slot (VStr "Hello"))).
Proof.
  destruct (Header_hello Examples.example_heap 1%positive {["children" := VStr "Hello"]})
    as (h' & outer & inner & Hrun & _ & _ & Hview & _).
  - vm_compute. reflexivity.
  - vm_compute. reflexivity.
  - exists h', outer. split; assumption.
Defined.

(** C7: called with no content, the wrapper yields the two elements every
    call yields, the outer around the inner, and the inner element's slot
    holds [undefined]; the result differs from that of a call with a content
    [c] in the slot and in nothing else. *)
Theorem Header_no_content (h : heap) (props : loc) (fields : gmap string value) :
  h !! props = Some (OData fields) →
  fields !! "children" = None →
  ∃ (h' : heap) (outer inner : loc),
    Header (VRef props) h = (h', Return (VRef outer)) ∧
    h' !! outer = Some (OElement (Styled StyledHeader) {["children" := VRef inner]}) ∧
    h' !! inner = Some (OElement (Styled StyledH1) {["children" := VUndefined]}) ∧
    view 2 h' (VRef outer) =
      Element (Styled StyledHeader) (Element (Styled StyledH1) (Slot VUndefined)) ∧
    (∀ (c : value),
       ∃ (g' : heap),
         Header (VRef props) (<[props := OData (<["children" := c]> fields)]> h) =
           (g', Return (VRef outer)) ∧
         g' !! outer = Some (OElement (Styled StyledHeader) {["children" := VRef inner]}) ∧
         g' !! inner = Some (OElement (Styled StyledH1) {["children" := c]}) ∧
         view 2 g' (VRef outer) =
           Element (Styled StyledHeader) (Element (Styled StyledH1) (Slot c))).
Proof.
  intros Hprops Hchildren.
  pose proof (content_of_absent fields Hchildren) as Hc.
  exists (after h VUndefined), (outer_loc h), (inner_loc h).
  split; [by rewrite (Header_run h props _ Hprops), Hc |].
  split; [apply after_outer |].
  split; [apply after_inner |].
  split; [apply view_after |].
  intros c. set (g := <[props := OData (<["children" := c]> fields)]> h).
  assert (Hdom : dom g = dom h).
  { unfold g. rewrite dom_insert_L.
    apply subseteq_union_1_L, singleton_subseteq_l, elem_of_dom. by eexists. }
  destruct (locs_dom g h Hdom) as [Hin Hout].
  exists (after g c).
  assert (Hg : g !! props = Some (OData (<["children" := c]> fields))).
  { unfold g. by rewrite lookup_insert_eq. }
  split; [by rewrite (Header_run g props _ Hg), content_of_children, Hout |].
  split.
  { rewrite <- Hout, after_outer. unfold outer_element. by rewrite Hin. }
  split; [by rewrite <- Hin, after_inner |].
  by rewrite <- Hout, view_after.
Qed.

Lemma Header_no_content_witness :
  ∃ (h' : heap) (outer : loc),
    Header (VRef 2%positive) Examples.example_heap = (h', Return (VRef outer)) ∧
    view 2 h' (VRef outer) =
      Element (Styled StyledHeader) (Element (Styled StyledH1) (Slot VUndefined)).
Proof.
  destruct (Header_no_content Examples.example_heap 2%positive ∅)
    as (h' & outer & inner & Hrun & _ & _ & Hview & _).
  - vm_compute. reflexivity.
  - vm_compute. reflexivity.
  - exists h', outer. split; assumption.
Defined.

(** C10: [Header] reads nothing of its props but [children]: called in the
    same heap with two props objects of the same content it does the same,
    down to the locations, and called in any two heaps it builds the same
    structure. *)
Theorem Header_ignores_other_props (h : heap) (p q : loc) (o1 o2 : object) :
  h !! p = Some o1 →
  h !! q = Some o2 →
  content_of o1 = content_of o2 →
  Header (VRef p) h = Header (VRef q) h ∧
  (∀ (g : heap) (o3 : object),
     g !! q = Some o3 → content_of o3 = content_of o1 →
     ∃ (h' g' : heap) (out1 out2 : loc),
       Header (VRef p) h = (h', Return (VRef out1)) ∧
       Header (VRef q) g = (g', Return (VRef out2)) ∧
       view 2 h' (VRef out1) = view 2 g' (VRef out2)).
Proof.
  intros Hp Hq Hc. split.
  - by rewrite (Header_run h p o1 Hp), (Header_run h q o2 Hq), Hc.
  - intros g o3 Hg Hc3.
    exists (after h (content_of o1)), (after g (content_of o3)), (outer_loc h), (outer_loc g).
    split; [by apply Header_run |]. split; [by apply Header_run |].
    by rewrite !view_after, Hc3.
Qed.

Lemma Header_ignores_other_props_witness :
  Header (VRef 1%positive) Examples.example_heap =
  Header (VRef 3%positive) Examples.example_heap.
Proof.
  apply (Header_ignores_other_props Examples.example_heap 1%positive 3%positive
           Examples.hello_props Examples.more_props).
  - vm_compute. reflexivity.
  - vm_compute. reflexivity.
  - vm_compute. reflexivity.
Defined.

(** ** The style blocks *)

(** The units of the dimensions among a block's values. *)
Lemma StyledHeader_units :
  omap (λ d, snd <$> Css.dimension d.2) (Css.declarations (styles StyledHeader)) =
  ["%"; "vh"].
Proof. vm_compute. reflexivity. Qed.

(** C8: what a call builds is fixed by the content and by the two style
    blocks, which are constants of the module: any two calls, in any heaps,
    with props of the same content give instances of the same two blocks
    around that content.  The inner block's one rule gives font-size the
    dimension 2re, whose unit is none of the known ones, while the units of
    the outer block are known. *)
Theorem Header_fixed_style_blocks (h g : heap) (p q : loc) (o1 o2 : object) :
  h !! p = Some o1 →
  g !! q = Some o2 →
  content_of o1 = content_of o2 →
  ∃ (h' g' : heap) (out1 out2 : loc),
    Header (VRef p) h = (h', Return (VRef out1)) ∧
    Header (VRef q) g = (g', Return (VRef out2)) ∧
    view 2 h' (VRef out1) =
      Element (Styled StyledHeader) (Element (Styled StyledH1) (Slot (content_of o1))) ∧
    view 2 g' (VRef out2) =
      Element (Styled StyledHeader) (Element (Styled StyledH1) (Slot (content_of o1))) ∧
    StyledHeader = styled "header" (Lint.text (Lint.templates Lint.Header_js !!! 0%nat)) ∧
    StyledH1 = styled "h1" (Lint.text (Lint.templates Lint.Header_js !!! 1%nat)) ∧
    Css.rule (styles StyledH1) "font-size" = Some "2re" ∧
    Css.dimension "2re" = Some ("2", "re") ∧
    Lint.known "re" = false ∧
    Forall (λ d, ∀ n u, Css.dimension d.2 = Some (n, u) → Lint.known u = true)
           (Css.declarations (styles StyledHeader)).
Proof.
  intros Hp Hq Hc.
  exists (after h (content_of o1)), (after g (content_of o2)), (outer_loc h), (outer_loc g).
  split; [by apply Header_run |]. split; [by apply Header_run |].
  split; [apply view_after |]. split; [rewrite <- Hc; apply view_after |].
  split; [vm_compute; reflexivity |]. split; [vm_compute; reflexivity |].
  split; [vm_compute; reflexivity |]. split; [vm_compute; reflexivity |].
  split; [vm_compute; reflexivity |].
  repeat constructor; cbn [snd]; intros n u Hd; vm_compute in Hd;
    try discriminate; injection Hd as _ <-; vm_compute; reflexivity.
Qed.

Lemma Header_fixed_style_blocks_witness :
  ∃ (h' g' : heap) (out1 out2 : loc),
    Header (VRef 1%positive) Examples.example_heap = (h', Return (VRef out1)) ∧
    Header (VRef 3%positive) (delete 2%positive Examples.example_heap) =
      (g', Return (VRef out2)) ∧
    view 2 h' (VRef out1) = view 2 g' (VRef out2).
Proof.
  destruct (Header_fixed_style_blocks
              Examples.example_heap (delete 2%positive Examples.example_heap)
              1%positive 3%positive Examples.hello_props Examples.more_props)
    as (h' & g' & out1 & out2 & Hrun1 & Hrun2 & Hview1 & Hview2 & _).
  - vm_compute. reflexivity.
  - vm_compute. reflexivity.
  - vm_compute. reflexivity.
  - exists h', g', out1, out2. repeat split; try assumption.
    by rewrite Hview1, Hview2.
Defined.

(** ** The linter *)

(** C9: linting the source reports the unit re of the inner block as
    unknown, at line 13, column 14, and nothing else; the block on its own
    gets the same report, and the block with rem for re gets none. *)
Theorem lint_flags_unknown_unit :
  map Lint.text (Lint.templates Lint.Header_js) = [styles StyledHeader; styles StyledH1] ∧
  Lint.lint_js Lint.Header_js =
    [ {| Lint.at_line := 13; Lint.at_column := 14;
         Lint.rule_name := "unit-no-unknown"; Lint.subject := "re" |} ] ∧
  Lint.lint_css (styles StyledH1) =
    [ {| Lint.at_line := 2; Lint.at_column := 14;
         Lint.rule_name := "unit-no-unknown"; Lint.subject := "re" |} ] ∧
  Css.declarations Lint.corrected_styles = [("font-size", "2rem")] ∧
  Lint.lint_css Lint.corrected_styles = [] ∧
  Lint.lint_css (styles StyledHeader) = [].
Proof. repeat split; vm_compute; reflexivity. Qed.

(** ** Every kind of props value *)

Lemma get_children_primitive (v : value) (h : heap) :
  is_primitive v = true → get_children v h = (h, Return VUndefined).
Proof. destruct v; done. Qed.

Lemma Header_run_content (props : value) (h : heap) (c : value) :
  get_children props h = (h, Return c) →
  Header props h = (after h c, Return (VRef (outer_loc h))).
Proof.
  intros Hget. unfold Header, mbind, M_bind.
  rewrite Hget, !createElement_run, fresh_loc_insert. reflexivity.
Qed.




(** X2: a boolean, a number or a string for props is no error: it has no
    [children], so the call builds the two elements around [undefined] and
    leaves the heap it found as it was. *)
Theorem Header_primitive_props (props : value) (h : heap) :
  is_primitive props = true →
  ∃ (h' : heap) (outer inner : loc),
    Header props h = (h', Return (VRef outer)) ∧
    h !! outer = None ∧ h !! inner = None ∧ h ⊆ h' ∧
    h' !! outer = Some (OElement (Styled StyledHeader) {["children" := VRef inner]}) ∧
    h' !! inner = Some (OElement (Styled StyledH1) {["children" := VUndefined]}) ∧
    view 2 h' (VRef outer) =
      Element (Styled StyledHeader) (Element (Styled StyledH1) (Slot VUndefined)).
Proof.
  intros Hprim.
  exists (after h VUndefined), (outer_loc h), (inner_loc h).
  split; [by apply Header_run_content, get_children_primitive |].
  split; [apply outer_loc_fresh |].
  split; [apply inner_loc_fresh |].
  split; [apply after_extends |].
  split; [apply after_outer |].
  split; [apply after_inner |].
  apply view_after.
Qed.

Lemma Header_primitive_props_witness :
  ∃ (h' : heap) (outer : loc),
    Header (VStr "Hello") Examples.example_heap = (h', Return (VRef outer)) ∧
    view 2 h' (VRef outer) =
      Element (Styled StyledHeader) (Element (Styled StyledH1) (Slot VUndefined)).
Proof.
  destruct (Header_primitive_props (VStr "Hello") Examples.example_heap)
    as (h' & outer & inner & Hrun & _ & _ & _ & _ & _ & Hview).
  - reflexivity.
  - exists h', outer. split; assumption.
Defined.

(** ** Well-formed heaps *)







(** ** Wrappers in wrappers, and what the result shares *)

(** Reading through an outer and an inner element the heap holds. *)
Lemma view_wrapper (d : nat) (g : heap) (outer inner : loc) (t1 t2 : elem_type)
    (c : value) :
  g !! outer = Some (OElement t1 {["children" := VRef inner]}) →
  g !! inner = Some (OElement t2 {["children" := c]}) →
  view (S (S d)) g (VRef outer) = Element t1 (Element t2 (view d g c)).
Proof.
  intros Houter Hinner.
  rewrite (view_element _ _ _ _ _ Houter), lookup_singleton_eq. cbn [default].
  rewrite (view_element _ _ _ _ _ Hinner), lookup_singleton_eq.
  reflexivity.
Qed.

(** X4: wrappers nest.  When the content of the props of a call is the
    result of an earlier call, whatever was allocated in between, the result
    reads as four elements, header, h1, header, h1, around the content of the
    earlier call. *)
Theorem Header_nested (h h1 h2 : heap) (p q : loc) (o o2 : object) (v1 : value) :
  h !! p = Some o →
  Header (VRef p) h = (h1, Return v1) →
  h1 ⊆ h2 →
  h2 !! q = Some o2 →
  content_of o2 = v1 →
  ∃ (h3 : heap) (out : loc),
    Header (VRef q) h2 = (h3, Return (VRef out)) ∧
    view 4 h3 (VRef out) =
      Element (Styled StyledHeader) (Element (Styled StyledH1)
        (Element (Styled StyledHeader) (Element (Styled StyledH1)
           (Slot (content_of o))))).
Proof.
  intros Hp Hrun Hsub Hq Hc.
  rewrite (Header_run h p o Hp) in Hrun. injection Hrun as <- <-.
  exists (after h2 (content_of o2)), (outer_loc h2).
  split; [by apply Header_run |].
  assert (Hsub3 : after h (content_of o) ⊆ after h2 (content_of o2)).
  { etrans; [exact Hsub | apply after_extends]. }
  rewrite (view_wrapper 2 _ _ _ _ _ _ (after_outer h2 _) (after_inner h2 _)).
  rewrite Hc in *. f_equal. f_equal.
  apply (view_wrapper 0 _ (outer_loc h) (inner_loc h)).
  - eapply lookup_weaken; [apply after_outer | exact Hsub3].
  - eapply lookup_weaken; [apply after_inner | exact Hsub3].
Qed.

Lemma Header_nested_witness :
  ∃ (h3 : heap) (out : loc),
    Header (VRef 9%positive)
      (<[9%positive := OData {["children" := VRef (outer_loc Examples.example_heap)]}]>
         (after Examples.example_heap (VStr "Hello"))) = (h3, Return (VRef out)) ∧
    view 4 h3 (VRef out) =
      Element (Styled StyledHeader) (Element (Styled StyledH1)
        (Element (Styled StyledHeader) (Element (Styled StyledH1)
           (Slot (VStr "Hello"))))).
Proof.
  apply (Header_nested Examples.example_heap
           (after Examples.example_heap (VStr "Hello")) _
           1%positive 9%positive Examples.hello_props
           (OData {["children" := VRef (outer_loc Examples.example_heap)]})
           (VRef (outer_loc Examples.example_heap))).
  - vm_compute. reflexivity.
  - vm_compute. reflexivity.
  - apply insert_subseteq. vm_compute. reflexivity.
  - vm_compute. reflexivity.
  - vm_compute. reflexivity.
Defined.



(** X6: a content that is an object is shared, not copied: the inner element
    holds the reference itself, so that what the object at that location is
    later found to be, here an element with one child, is what the result
    reads as below its two elements. *)
Theorem Header_shares_content (h h' : heap) (p lc : loc) (o : object) (out : value)
    (type : elem_type) (child : value) :
  h !! p = Some o →
  content_of o = VRef lc →
  is_Some (h !! lc) →
  Header (VRef p) h = (h', Return out) →
  view 2 h' out =
    Element (Styled StyledHeader) (Element (Styled StyledH1) (Slot (VRef lc))) ∧
  h' !! lc = h !! lc ∧
  view 3 (<[lc := OElement type {["children" := child]}]> h') out =
    Element (Styled StyledHeader) (Element (Styled StyledH1)
      (Element type (Slot child))).
Proof.
  intros Hp Hc Hlc Hrun.
  rewrite (Header_run h p o Hp), Hc in Hrun. injection Hrun as <- <-.
  assert (Hlo : lc ≠ outer_loc h).
  { intros ->. rewrite outer_loc_fresh in Hlc. by destruct Hlc. }
  assert (Hli : lc ≠ inner_loc h).
  { intros ->. rewrite inner_loc_fresh in Hlc. by destruct Hlc. }
  split; [apply view_after |].
  split; [by apply after_old |].
  rewrite (view_wrapper 1 _ (outer_loc h) (inner_loc h)
             (Styled StyledHeader) (Styled StyledH1) (VRef lc)).
  - rewrite (view_element 0 _ lc type {["children" := child]}).
    + by rewrite lookup_singleton_eq.
    + by rewrite lookup_insert_eq.
  - rewrite lookup_insert_ne by done. apply after_outer.
  - rewrite lookup_insert_ne by done. apply after_inner.
Qed.

Lemma Header_shares_content_witness :
  view 3 (<[4%positive := OElement (Host "span") {["children" := VStr "x"]}]>
            (after Examples.example_heap (VRef 4%positive)))
    (VRef (outer_loc Examples.example_heap)) =
  Element (Styled StyledHeader) (Element (Styled StyledH1)
    (Element (Host "span") (Slot (VStr "x")))).
Proof.
  apply (Header_shares_content Examples.example_heap
           (after Examples.example_heap (VRef 4%positive)) 5%positive 4%positive
           Examples.nested_props (VRef (outer_loc Examples.example_heap))
           (Host "span") (VStr "x")).
  - vm_compute. reflexivity.
  - vm_compute. reflexivity.
  - apply (bool_decide_unpack _). vm_compute. exact I.
  - vm_compute. reflexivity.
Defined.
